(** * valtio-auto-persist: the persistence coordinator of [src/index.ts]

    A shallow embedding of [persist] and of the session handle it returns
    ([persist], [clear], [restore] and the callback subscribed to the
    store), followed by the properties of the specification.

    Modelling conventions.
    - JavaScript values are the inductive [jsval]; an object is the list
      of its own fields in insertion order.
    - The module-level [let userProvidedKey], the storage backend, the
      objects wrapped by valtio's [proxy] and the clock live in one
      [World]; the closure variables of one [persist] call live in a
      [Session].  The code is written in a state monad over [World].
    - Every strategy call is recorded in [calls], so that "calls
      storage.set" is a statement about that log.
    - A strategy is a record of total functions: a strategy that throws
      is outside the model.  [await] is sequential: one operation runs to
      completion before the next event is handled, which is exact for
      synchronous strategies.  A property of several events that needs
      the callback or [persistData] to run without suspending assumes
      [synchronous] strategies, or sequences without a migration, in
      which the callback has no [await].
    - [persist] and [restore] take [initialState] and the merge result
      as values, and [alloc] gives each session an object of its own.
      Where it matters that the store can be the very object a merge
      strategy returned, [persistAt] and [restoreAt] take [initialState]
      by reference. *)

From stdpp Require Import base strings list gmap.
From Stdlib Require Import ZArith Lia DecimalString.

Set Warnings "-register-all".

Local Open Scope string_scope.
Local Open Scope list_scope.
Local Open Scope Z_scope.

(** ** JavaScript values *)

Inductive jsval : Type :=
| JUndefined
| JNull
| JBool (b : bool)
| JNum (n : Z)
| JNaN
| JStr (s : string)
| JObj (fields : list (string * jsval)).

(** An object: its own fields, in insertion order. *)
Abbreviation obj := (list (string * jsval)).

(** ToBoolean: [undefined], [null], [false], [0], [NaN] and the empty
    string are falsy, every object is truthy. *)
Definition truthy (v : jsval) : bool :=
  match v with
  | JUndefined | JNull | JNaN => false
  | JBool b => b
  | JNum n => negb (n =? 0)
  | JStr s => negb (String.eqb s "")
  | JObj _ => true
  end.

(** [v || null] *)
Definition or_null (v : jsval) : jsval := if truthy v then v else JNull.

(** [o[k]] on own fields. *)
Fixpoint getField (o : obj) (k : string) : option jsval :=
  match o with
  | [] => None
  | (k', v) :: r => if String.eqb k' k then Some v else getField r k
  end.

(** [o[k] = v]: an existing field keeps its position, a new one is
    appended. *)
Fixpoint setField (o : obj) (k : string) (v : jsval) : obj :=
  match o with
  | [] => [(k, v)]
  | (k', v') :: r =>
      if String.eqb k' k then (k, v) :: r else (k', v') :: setField r k v
  end.

(** Modelled from the spec: [updateStore] of [./utils], which is not among
    the sources.  The spec says that restore "applies the merged result's
    fields onto the live store in place": every field of the new state is
    assigned to the store object.  A new state that is not an object has
    no fields to apply. *)
Definition updateStore (store : obj) (newState : jsval) : obj :=
  match newState with
  | JObj fields => fold_left (fun st kv => setField st kv.1 kv.2) fields store
  | _ => store
  end.

(** valtio's [proxy(baseObject = {})]: the default parameter replaces
    [undefined] by a fresh empty object, an object is wrapped, and any
    other value is rejected with the error "object required" ([None]). *)
Definition proxy (baseObject : jsval) : option obj :=
  match baseObject with
  | JUndefined => Some []
  | JObj fields => Some fields
  | _ => None
  end.

(** ** Strategies, options, sessions and the world *)

Section Persist.

(** The state of the storage backend. *)
Context {St : Type}.

(** [generateStructureId] of the package structure-id. *)
Variable generateStructureId : obj -> string.

Record StorageStrategy : Type := {
  st_isAsync : bool;
  st_get : St -> string -> jsval;
  st_set : St -> string -> jsval -> St;
  st_remove : St -> string -> St
}.

Record SerializationStrategy : Type := {
  ser_isAsync : bool;
  serialize : obj -> jsval;
  deserialize : jsval -> jsval
}.

Record MergeStrategy : Type := {
  mg_isAsync : bool;
  mg_merge : obj -> jsval -> jsval
}.

(** [o = { ...defaultOptions, ...options }], with the strategy slots
    already instantiated. *)
Record PersistOptions : Type := {
  o_key : string;
  storageStrategy : StorageStrategy;
  serializationStrategy : SerializationStrategy;
  mergeStrategy : MergeStrategy;
  shouldPersist : obj -> obj -> bool;
  debounceTime : Z;
  updateStorageKeyOnStructureChange : bool
}.

Definition defaultOptions (LocalStorageStrategy : StorageStrategy)
    (JSONSerializationStrategy : SerializationStrategy)
    (DefaultMergeStrategy : MergeStrategy) : PersistOptions :=
  {| o_key := "";
     storageStrategy := LocalStorageStrategy;
     serializationStrategy := JSONSerializationStrategy;
     mergeStrategy := DefaultMergeStrategy;
     shouldPersist := fun _ _ => true;
     debounceTime := 100;
     updateStorageKeyOnStructureChange := true |}.

Definition isSyncStorage (storage : StorageStrategy) : bool :=
  negb (st_isAsync storage).
Definition isSyncSerializer (serializer : SerializationStrategy) : bool :=
  negb (ser_isAsync serializer).
Definition isSyncMerger (merger : MergeStrategy) : bool :=
  negb (mg_isAsync merger).

(** A call made to one of the three strategies. *)
Inductive call : Type :=
| CallGet (k : string)
| CallSet (k : string) (data : jsval)
| CallRemove (k : string)
| CallSerialize (state : obj)
| CallDeserialize (data : jsval)
| CallMerge (initial : obj) (stored : jsval).

Record World : Type := mkWorld {
  userProvidedKey : bool;      (* [let userProvidedKey], module level *)
  backend : St;                (* what the storage backend holds *)
  calls : list call;           (* strategy calls so far, oldest first *)
  clock : Z;                   (* milliseconds *)
  heap : list obj              (* the objects behind the proxies *)
}.

(** [let userProvidedKey = true] *)
Definition initialWorld (b : St) : World :=
  mkWorld true b [] 0 [].

(** The closure of one [persist] call.  [key] and [store] are [const]
    bindings; [previousState] is the only [let]; [timer] is the pending
    timeout of [debouncedPersist], as the time at which it is due. *)
Record Session : Type := mkSession {
  initialState : obj;
  o : PersistOptions;
  key : string;
  store : nat;
  previousState : obj;
  timer : option Z
}.

(** *** The state monad *)

Definition M (A : Type) : Type := World -> A * World.

#[global] Instance M_ret : MRet M := fun A a w => (a, w).
#[global] Instance M_bind : MBind M :=
  fun A B k m w => let r := m w in k r.1 r.2.

Definition await {A : Type} (m : M A) : M A := m.

Definition logCall (c : call) (w : World) : World :=
  mkWorld (userProvidedKey w) (backend w) (calls w ++ [c]) (clock w) (heap w).

Definition storage_get (storage : StorageStrategy) (k : string) : M jsval :=
  fun w => (st_get storage (backend w) k, logCall (CallGet k) w).

Definition storage_set (storage : StorageStrategy) (k : string) (data : jsval)
    : M unit :=
  fun w =>
    (tt, mkWorld (userProvidedKey w) (st_set storage (backend w) k data)
           (calls w ++ [CallSet k data]) (clock w) (heap w)).

Definition storage_remove (storage : StorageStrategy) (k : string) : M unit :=
  fun w =>
    (tt, mkWorld (userProvidedKey w) (st_remove storage (backend w) k)
           (calls w ++ [CallRemove k]) (clock w) (heap w)).

Definition call_serialize (serializer : SerializationStrategy) (state : obj)
    : M jsval :=
  fun w => (serialize serializer state, logCall (CallSerialize state) w).

Definition call_deserialize (serializer : SerializationStrategy) (data : jsval)
    : M jsval :=
  fun w => (deserialize serializer data, logCall (CallDeserialize data) w).

Definition call_merge (merger : MergeStrategy) (initial : obj) (stored : jsval)
    : M jsval :=
  fun w => (mg_merge merger initial stored, logCall (CallMerge initial stored) w).

(** valtio's [snapshot(store)]: the current fields of the object. *)
Definition snapshot (ref : nat) : M obj :=
  fun w => (default [] (heap w !! ref), w).

(** Allocation of the object behind a new proxy. *)
Definition alloc (fields : obj) : M nat :=
  fun w =>
    (length (heap w),
     mkWorld (userProvidedKey w) (backend w) (calls w) (clock w)
       (heap w ++ [fields])).

(** An in-place update of the object behind [ref]. *)
Definition modify (ref : nat) (f : obj -> obj) : M unit :=
  fun w =>
    (tt, mkWorld (userProvidedKey w) (backend w) (calls w) (clock w)
           (alter f ref (heap w))).

Definition read_userProvidedKey : M bool := fun w => (userProvidedKey w, w).

Definition write_userProvidedKey (b : bool) : M unit :=
  fun w => (tt, mkWorld b (backend w) (calls w) (clock w) (heap w)).

Definition now : M Z := fun w => (clock w, w).

Definition sleep (dt : Z) : M unit :=
  fun w =>
    (tt, mkWorld (userProvidedKey w) (backend w) (calls w) (clock w + dt)
           (heap w)).

(** ** [persist] *)

(** Lines 122-136 of [persist]; lines 210-224 of [restore] repeat them
    word for word, so both use this one definition. *)
Definition loadMergedState (initialState : obj) (key : string)
    (storage : StorageStrategy) (serializer : SerializationStrategy)
    (merger : MergeStrategy) : M jsval :=
  data ←
    (if isSyncStorage storage
     then v ← storage_get storage key; mret (or_null v)
     else v ← await (storage_get storage key); mret (or_null v));
  storedState ←
    (if truthy data
     then
       if isSyncSerializer serializer
       then v ← call_deserialize serializer data; mret (or_null v)
       else v ← await (call_deserialize serializer data); mret (or_null v)
     else mret JNull);
  if truthy storedState
  then
    if isSyncMerger merger
    then v ← call_merge merger initialState storedState; mret (or_null v)
    else v ← await (call_merge merger initialState storedState);
         mret (or_null v)
  else mret JUndefined.

(** [persist(initialState, options)] up to the creation of the session;
    [None] is the exception thrown by [proxy].  The callback given to
    [subscribe] is [onMutation] below, and the returned handle is the
    session with [persistData], [clear] and [restore].  The [Proxy] put
    around the storage instance only renames [getItem], [setItem] and
    [removeItem]; [get], [set], [remove] and [isAsync] go through to the
    instance, which is what is called here. *)
Definition persist (initialState : obj) (o : PersistOptions)
    : M (option Session) :=
  let key :=
    if String.eqb (o_key o) "" then generateStructureId initialState
    else o_key o in
  _ ← (if String.eqb (o_key o) "" then write_userProvidedKey false
       else mret tt);
  let storage := storageStrategy o in
  let serializer := serializationStrategy o in
  let merger := mergeStrategy o in
  mergedState ← loadMergedState initialState key storage serializer merger;
  match proxy mergedState with
  | None => mret None
  | Some fields =>
      store ← alloc fields;
      previousState ← snapshot store;
      mret (Some (mkSession initialState o key store previousState None))
  end.

(** [persistData], returned as the handle's [persist]. *)
Definition persistData (s : Session) : M unit :=
  let storage := storageStrategy (o s) in
  let serializer := serializationStrategy (o s) in
  currentState ← snapshot (store s);
  if negb (shouldPersist (o s) (previousState s) currentState)
  then mret tt
  else
    serialized ←
      (if isSyncSerializer serializer
       then call_serialize serializer currentState
       else await (call_serialize serializer currentState));
    if isSyncStorage storage
    then storage_set storage (key s) serialized
    else storage_set storage (key s) serialized.

(** Modelled from the spec: [debounce] of [./utils], which is not among
    the sources.  The spec describes a trailing-edge debounce whose
    timer is "implicitly reset on each qualifying mutation": a call
    replaces the pending timeout by one due [debounceTime] milliseconds
    from now. *)
Definition debouncedPersist (s : Session) : M Session :=
  t ← now;
  mret (mkSession (initialState s) (o s) (key s) (store s) (previousState s)
          (Some (t + debounceTime (o s)))).

(** Modelled from the spec: the timeout set by [debounce] has elapsed,
    "using the most recent snapshot at the time the window elapses":
    [persistData] runs once and the timer is gone. *)
Definition fireTimer (s : Session) : M Session :=
  t ← now;
  match timer s with
  | Some due =>
      if due <=? t
      then
        _ ← persistData s;
        mret (mkSession (initialState s) (o s) (key s) (store s)
                (previousState s) None)
      else mret s
  | None => mret s
  end.

(** The condition of line 176. *)
Definition structureChanged (key : string) (o : PersistOptions)
    (generatedId : string) (flag : bool) : bool :=
  negb (String.eqb key generatedId) && negb flag
  && updateStorageKeyOnStructureChange o.

(** The callback given to [subscribe(store, ...)], lines 170-196. *)
Definition onMutation (s : Session) : M Session :=
  let storage := storageStrategy (o s) in
  let serializer := serializationStrategy (o s) in
  currentState ← snapshot (store s);
  let generatedId := generateStructureId currentState in
  flag ← read_userProvidedKey;
  _ ←
    (if structureChanged (key s) (o s) generatedId flag
     then
       data ←
         (if isSyncSerializer serializer
          then call_serialize serializer currentState
          else await (call_serialize serializer currentState));
       if isSyncStorage storage
       then
         _ ← storage_remove storage (key s);
         storage_set storage generatedId data
       else
         _ ← await (storage_remove storage (key s));
         await (storage_set storage generatedId data)
     else mret tt);
  s' ←
    (if shouldPersist (o s) (previousState s) currentState
     then debouncedPersist s
     else mret s);
  mret (mkSession (initialState s') (o s') (key s') (store s') currentState
          (timer s')).

(** The handle's [clear]. *)
Definition clear (s : Session) : M unit :=
  let storage := storageStrategy (o s) in
  if isSyncStorage storage
  then storage_remove storage (key s)
  else storage_remove storage (key s).

(** The handle's [restore]. *)
Definition restore (s : Session) : M bool :=
  let storage := storageStrategy (o s) in
  let serializer := serializationStrategy (o s) in
  let merger := mergeStrategy (o s) in
  mergedState ←
    loadMergedState (initialState s) (key s) storage serializer merger;
  if truthy mergedState
  then
    _ ← modify (store s) (fun fields => updateStore fields mergedState);
    mret true
  else mret false.

(** ** The life of a session *)

(** What can happen to a session: the caller assigns the fields of the
    store, valtio delivers a mutation notification, time passes, or the
    caller uses the handle. *)
Inductive event : Type :=
| EMutate (fields : obj)
| ENotify
| EAdvance (dt : Z)
| EPersist
| EClear
| ERestore.

Definition step (s : Session) (e : event) : M Session :=
  match e with
  | EMutate fields => _ ← modify (store s) (fun _ => fields); mret s
  | ENotify => onMutation s
  | EAdvance dt => _ ← sleep dt; fireTimer s
  | EPersist => _ ← persistData s; mret s
  | EClear => _ ← clear s; mret s
  | ERestore => _ ← restore s; mret s
  end.

Fixpoint run (s : Session) (es : list event) : M Session :=
  match es with
  | [] => mret s
  | e :: es' => s' ← step s e; run s' es'
  end.

End Persist.

(** ** Fixtures

    Concrete strategies for the examples: an in-memory backend, a codec
    that prints objects and reads back a given table of known strings, a
    shallow merge, and a structural key that adds one code per field
    (name and type of the value, never the value). *)

Definition memoryStorage : @StorageStrategy (gmap string jsval) :=
  {| st_isAsync := false;
     st_get := fun m k => default JNull (m !! k);
     st_set := fun m k data => <[k := data]> m;
     st_remove := fun m k => delete k m |}.

Fixpoint showVal (v : jsval) : string :=
  match v with
  | JUndefined => "undefined"
  | JNull => "null"
  | JBool true => "true"
  | JBool false => "false"
  | JNum n => NilZero.string_of_int (Z.to_int n)
  | JNaN => "NaN"
  | JStr s => "'" +:+ s +:+ "'"
  | JObj fields =>
      "{" +:+
      (fix showFields (l : list (string * jsval)) : string :=
         match l with
         | [] => ""
         | (k, x) :: r => k +:+ ":" +:+ showVal x +:+ ";" +:+ showFields r
         end) fields
      +:+ "}"
  end.

Definition tableSerializer (table : list (string * jsval))
    : SerializationStrategy :=
  {| ser_isAsync := false;
     serialize := fun state => JStr (showVal (JObj state));
     deserialize := fun data =>
       match data with
       | JStr s => default JNull (getField table s)
       | _ => JNull
       end |}.

(** [{ ...initialState, ...storedState }] *)
Definition shallowMerge : MergeStrategy :=
  {| mg_isAsync := false;
     mg_merge := fun initial stored => JObj (updateStore initial stored) |}.

(** A merge strategy that never has a result. *)
Definition nullMerge : MergeStrategy :=
  {| mg_isAsync := false; mg_merge := fun _ _ => JNull |}.

Fixpoint nameCode (s : string) : Z :=
  match s with
  | EmptyString => 0
  | String c r => Z.of_N (Ascii.N_of_ascii c) + nameCode r
  end.

Definition typeTag (v : jsval) : Z :=
  match v with
  | JUndefined => 0
  | JNull => 1
  | JBool _ => 2
  | JNum _ | JNaN => 3
  | JStr _ => 4
  | JObj _ => 5
  end.

Definition shapeId (state : obj) : string :=
  "L0:" +:+
  NilZero.string_of_int
    (Z.to_int
       (fold_right (fun kv acc => 8 * nameCode kv.1 + typeTag kv.2 + acc) 0
          state)).

Definition demoOptions (k : string) (sp : obj -> obj -> bool) (upd : bool)
    (table : list (string * jsval)) (merger : MergeStrategy)
    : @PersistOptions (gmap string jsval) :=
  {| o_key := k;
     storageStrategy := memoryStorage;
     serializationStrategy := tableSerializer table;
     mergeStrategy := merger;
     shouldPersist := sp;
     debounceTime := 100;
     updateStorageKeyOnStructureChange := upd |}.

Definition always (b : bool) : obj -> obj -> bool := fun _ _ => b.

(** A [shouldPersist] that asks whether something changed, by comparing
    what the two snapshots print as. *)
Definition changed : obj -> obj -> bool :=
  fun prev next => negb (String.eqb (showVal (JObj prev)) (showVal (JObj next))).

Definition stateA : obj := [("a", JNum 1)].
Definition stateAB : obj := [("a", JNum 1); ("b", JStr "x")].
Definition stateCT : obj := [("count", JNum 1); ("text", JStr "hello")].


(** *** Scenarios *)

(** What the codec of the scenarios reads back. *)
Definition demoTable : list (string * jsval) :=
  [("{a:1;}", JObj stateA); ("{a:1;b:'x';}", JObj stateAB)].

(** A process that has not called [persist] yet, with [{a:1}] stored
    under [k]. *)
Definition worldWith (k : string) : @World (gmap string jsval) :=
  initialWorld {[ k := JStr "{a:1;}" ]}.

(** A session created by [persist(initial, opts)] in [w], after [es]. *)
Definition scenario (initial : obj) (opts : @PersistOptions (gmap string jsval))
    (es : list event) (w : World) : option (Session * World) :=
  let r := persist shapeId initial opts w in
  (fun s => run shapeId s es r.2) <$> r.1.

(** What is looked at in the result of a scenario: the session's key, the
    fields of its store, the calls made, and the backend at three keys. *)
Definition observe
    (r : option (@Session (gmap string jsval) * @World (gmap string jsval)))
    : option (string * obj * list call * list (option jsval)) :=
  (fun p : @Session (gmap string jsval) * @World (gmap string jsval) =>
     (key p.1, default [] (heap p.2 !! store p.1), calls p.2,
      [backend p.2 !! "k"; backend p.2 !! "L0:779"; backend p.2 !! "L0:1567"]))
  <$> r.

(** No explicit key, [{a:1}] stored under its structural key; the store
    gets a field [b], the callback runs, the debounce time passes. *)
Definition migrationScenario (sp : obj -> obj -> bool) :=
  scenario stateA (demoOptions "" sp true demoTable shallowMerge)
    [EMutate stateAB; ENotify; EAdvance 100] (worldWith "L0:779").

(** A first session without a key, then a session with the key [k] whose
    store gets a field [b]. *)
Definition twoSessionsScenario :=
  let w1 := (persist shapeId stateCT
               (demoOptions "" (always true) true demoTable shallowMerge)
               (worldWith "k")).2 in
  scenario stateA (demoOptions "k" (always true) true demoTable shallowMerge)
    [EMutate stateAB; ENotify; EAdvance 100] w1.

(** The same session with the key [k], alone in its process. *)
Definition oneSessionScenario :=
  scenario stateA (demoOptions "k" (always true) true demoTable shallowMerge)
    [EMutate stateAB; ENotify; EAdvance 100] (worldWith "k").

(** The session that [persist({a:1}, opts)] makes without a key when
    [{a:1}] is stored under the structural key, and the world it leaves. *)
Definition keylessSession (sp : obj -> obj -> bool) (upd : bool)
    : @Session (gmap string jsval) :=
  mkSession stateA (demoOptions "" sp upd demoTable shallowMerge)
    "L0:779" 0 stateA None.

Definition keylessWorld : @World (gmap string jsval) :=
  mkWorld false {[ "L0:779" := JStr "{a:1;}" ]}
    [CallGet "L0:779"; CallDeserialize (JStr "{a:1;}");
     CallMerge stateA (JObj stateA)]
    0 [stateA].

(** ** What the operations do, as pure functions of the state

    These are the right-hand sides of the equations proved below. *)

Section Effects.

Context {St : Type}.
Variable generateStructureId : obj -> string.

(** The value of [mergedState] when [storage.get(key)] returned [g]. *)
Definition mergedOf (initial : obj) (serializer : SerializationStrategy)
    (merger : MergeStrategy) (g : jsval) : jsval :=
  if truthy g
  then
    if truthy (deserialize serializer g)
    then or_null (mg_merge merger initial (deserialize serializer g))
    else JUndefined
  else JUndefined.

(** The strategy calls made while loading. *)
Definition loadCalls (initial : obj) (key : string)
    (serializer : SerializationStrategy) (g : jsval) : list (@call) :=
  CallGet key ::
  (if truthy g
   then
     CallDeserialize g ::
     (if truthy (deserialize serializer g)
      then [CallMerge initial (deserialize serializer g)]
      else [])
   else []).

(** The calls of the migration branch of the callback for the snapshot
    [cur], and what they leave in the backend. *)
Definition migrationCalls (key : string) (o : @PersistOptions St)
    (flag : bool) (cur : obj) : list call :=
  if structureChanged key o (generateStructureId cur) flag
  then [CallSerialize cur; CallRemove key;
        CallSet (generateStructureId cur)
          (serialize (serializationStrategy o) cur)]
  else [].

Definition migrationBackend (key : string) (o : @PersistOptions St)
    (flag : bool) (cur : obj) (b : St) : St :=
  if structureChanged key o (generateStructureId cur) flag
  then st_set (storageStrategy o)
         (st_remove (storageStrategy o) b key)
         (generateStructureId cur)
         (serialize (serializationStrategy o) cur)
  else b.

(** The calls of [persistData] for the snapshot [cur]. *)
Definition writeCalls (key : string) (o : @PersistOptions St) (cur : obj)
    : list call :=
  [CallSerialize cur; CallSet key (serialize (serializationStrategy o) cur)].

(** The value of [const key], and of [userProvidedKey] after line 83. *)
Definition initialKey (initial : obj) (o : @PersistOptions St) : string :=
  if String.eqb (o_key o) "" then generateStructureId initial else o_key o.

Definition flagAfterPersist (o : @PersistOptions St) (flag : bool) : bool :=
  if String.eqb (o_key o) "" then false else flag.

Definition isSet (c : call) : bool :=
  match c with
  | CallSet _ _ => true
  | _ => false
  end.

(** A burst of mutations, each notified to the callback: the first one
    now, every later one [dt] milliseconds after the one before it, and
    then [wait] milliseconds of silence. *)
Definition burst (first : obj) (rest : list (Z * obj)) (wait : Z)
    : list event :=
  [EMutate first; ENotify]
  ++ flat_map (fun p => [EAdvance p.1; EMutate p.2; ENotify]) rest
  ++ [EAdvance wait].

Definition sumZ (l : list Z) : Z := fold_right Z.add 0 l.

(** Every [storage.set] among [new] is the write of a migration: under
    the key recomputed from some snapshot, different from the session's
    key, with that snapshot's serialization, in a process whose flag is
    off and with the option on. *)
Definition migrationOnly (key : string) (o : @PersistOptions St)
    (flag : bool) (new : list call) : Prop :=
  forall k d, In (CallSet k d) new ->
    flag = false /\ updateStorageKeyOnStructureChange o = true /\
    exists cur : obj,
      k = generateStructureId cur /\ k <> key /\
      d = serialize (serializationStrategy o) cur.

End Effects.

(** The [storage.set] calls of a scenario. *)
Definition setCalls
    (r : option (@Session (gmap string jsval) * @World (gmap string jsval)))
    : option (list call) :=
  (fun p : @Session (gmap string jsval) * @World (gmap string jsval) =>
     List.filter isSet (calls p.2)) <$> r.

(** ** The process around the sessions *)

Section Process.

Context {St : Type}.
Variable generateStructureId : obj -> string.

(** What the program does with the module: it calls [persist], or
    something happens to a session it holds. *)
Inductive action : Type :=
| ACreate (initial : obj) (opts : @PersistOptions St)
| AUse (s : @Session St) (es : list event).

Definition perform (a : action) : M unit :=
  match a with
  | ACreate initial opts =>
      _ ← persist generateStructureId initial opts; mret tt
  | AUse s es => _ ← run generateStructureId s es; mret tt
  end.

Fixpoint performAll (acts : list action) : M unit :=
  match acts with
  | [] => mret tt
  | a :: acts' => _ ← perform a; performAll acts'
  end.

(** valtio delivers the notification of a change in a microtask, before
    any timeout and before the caller's next asynchronous step.  In such
    a sequence of events, once the store has changed ([dirty]: by the
    caller or by [restore]) the callback runs before time passes or
    [persist()] is called. *)
Fixpoint notifiedInTime (dirty : bool) (es : list event) : bool :=
  match es with
  | [] => true
  | EMutate _ :: es' | ERestore :: es' => notifiedInTime true es'
  | ENotify :: es' => notifiedInTime false es'
  | EClear :: es' => notifiedInTime dirty es'
  | EAdvance _ :: es' | EPersist :: es' =>
      negb dirty && notifiedInTime false es'
  end.

(** The storage key of a call to the storage strategy. *)
Definition callKey (c : call) : option string :=
  match c with
  | CallGet k | CallSet k _ | CallRemove k => Some k
  | _ => None
  end.

(** The calls to the storage strategy among [new] all name the key [k]. *)
Definition ownKeyOnly (k : string) (new : list call) : Prop :=
  Forall (fun c => callKey c = None \/ callKey c = Some k) new.

(** The calls of mutations that are at least one [debounceTime] apart,
    after the notification of the snapshot [cur]: the timer fires for
    [cur] before the next mutation arrives. *)
Fixpoint spacedCalls (key : string) (o : @PersistOptions St) (flag : bool)
    (cur : obj) (rest : list (Z * obj)) : list call :=
  match rest with
  | [] => []
  | p :: rest' =>
      writeCalls key o cur
      ++ migrationCalls generateStructureId key o flag p.2
      ++ spacedCalls key o flag p.2 rest'
  end.

End Process.

(** ** The calls of each event, and objects by reference *)

Section Attribution.

Context {St : Type}.
Variable generateStructureId : obj -> string.

(** The callback awaits the serializer and the storage only; when both
    are synchronous it runs to its end without suspending, and so does
    [persistData]. *)
Definition synchronous (o : @PersistOptions St) : bool :=
  isSyncStorage (storageStrategy o)
  && isSyncSerializer (serializationStrategy o).

(** The strategy calls of one event in a session that never persists:
    a notification makes the migration calls of the snapshot it sees,
    [clear()] removes the key, [restore()] loads, and a mutation, the
    passing of time and [persist()] call nothing. *)
Definition quietEventCalls (s : @Session St) (e : event) (w : @World St)
    : list call :=
  match e with
  | ENotify =>
      migrationCalls generateStructureId (key s) (o s) (userProvidedKey w)
        (snapshot (store s) w).1
  | EClear => [CallRemove (key s)]
  | ERestore =>
      loadCalls (initialState s) (key s) (serializationStrategy (o s))
        (st_get (storageStrategy (o s)) (backend w) (key s))
  | EMutate _ | EAdvance _ | EPersist => []
  end.

Fixpoint quietCalls (s : @Session St) (es : list event) (w : @World St)
    : list call :=
  match es with
  | [] => []
  | e :: es' =>
      quietEventCalls s e w
      ++ quietCalls (step generateStructureId s e w).1 es'
           (step generateStructureId s e w).2
  end.



End Attribution.



(** * Properties *)

Ltac unfold_monad :=
  unfold mbind, mret, M_bind, M_ret, await in *; cbn [fst snd] in *.

Lemma truthy_or_null (v : jsval) : truthy (or_null v) = truthy v.
Proof. unfold or_null. destruct (truthy v) eqn:E; [exact E | reflexivity]. Qed.

Lemma or_null_truthy (v : jsval) : truthy v = true -> or_null v = v.
Proof. unfold or_null. intros ->. reflexivity. Qed.

Lemma or_null_falsy (v : jsval) : truthy v = false -> or_null v = JNull.
Proof. unfold or_null. intros ->. reflexivity. Qed.

Section Equations.

Context {St : Type}.
Variable generateStructureId : obj -> string.

Implicit Types (w : @World St) (s : @Session St) (o : @PersistOptions St).

(** *** One equation per operation *)

Lemma loadMergedState_eq (initial : obj) (k : string)
    (storage : @StorageStrategy St) serializer merger w :
  loadMergedState initial k storage serializer merger w =
    (mergedOf initial serializer merger (st_get storage (backend w) k),
     mkWorld (userProvidedKey w) (backend w)
       (calls w ++ loadCalls initial k serializer
                     (st_get storage (backend w) k))
       (clock w) (heap w)).
Proof.
  unfold loadMergedState, mergedOf, loadCalls, storage_get, call_deserialize,
    call_merge, logCall.
  unfold_monad.
  destruct (isSyncStorage storage), (isSyncSerializer serializer),
    (isSyncMerger merger); cbn;
    rewrite ?truthy_or_null;
    (destruct (truthy (st_get storage (backend w) k)) eqn:Hg; cbn;
     [ rewrite ?(or_null_truthy _ Hg), ?truthy_or_null;
       destruct (truthy (deserialize serializer
                           (st_get storage (backend w) k))) eqn:Hd; cbn;
       [ rewrite ?(or_null_truthy _ Hd) | ]
     | ]);
    rewrite <- ?app_assoc; reflexivity.
Qed.

Lemma persist_eq (initial : obj) o w :
  let k := initialKey generateStructureId initial o in
  let g := st_get (storageStrategy o) (backend w) k in
  let m := mergedOf initial (serializationStrategy o) (mergeStrategy o) g in
  let cs := calls w ++ loadCalls initial k (serializationStrategy o) g in
  let flag := flagAfterPersist o (userProvidedKey w) in
  persist generateStructureId initial o w =
    match proxy m with
    | None => (None, mkWorld flag (backend w) cs (clock w) (heap w))
    | Some fields =>
        (Some (mkSession initial o k (length (heap w)) fields None),
         mkWorld flag (backend w) cs (clock w) (heap w ++ [fields]))
    end.
Proof.
  intros k g m cs flag. unfold persist. unfold_monad.
  fold (initialKey generateStructureId initial o). fold k.
  rewrite loadMergedState_eq.
  assert (Hw : forall b,
    backend ((if String.eqb (o_key o) ""
              then write_userProvidedKey (St:=St) b else (λ w0, (tt, w0))) w).2
    = backend w) by (intros b; destruct (String.eqb (o_key o) ""); reflexivity).
  destruct (String.eqb (o_key o) "") eqn:Hk; cbn;
    subst flag; unfold flagAfterPersist; rewrite Hk; fold g; fold m;
    (destruct (proxy m) as [fields|]; cbn; [ | reflexivity ]);
    unfold snapshot, alloc; cbn;
    rewrite list_lookup_middle by reflexivity; reflexivity.
Qed.

Lemma persistData_eq s w :
  let cur := default [] (heap w !! store s) in
  persistData s w =
    (tt,
     if shouldPersist (o s) (previousState s) cur
     then mkWorld (userProvidedKey w)
            (st_set (storageStrategy (o s)) (backend w) (key s)
               (serialize (serializationStrategy (o s)) cur))
            (calls w ++ writeCalls (key s) (o s) cur) (clock w) (heap w)
     else w).
Proof.
  intros cur. unfold persistData, snapshot, call_serialize, storage_set,
    logCall, writeCalls.
  unfold_monad. fold cur.
  destruct (shouldPersist (o s) (previousState s) cur); cbn;
    [ | reflexivity ].
  destruct (isSyncSerializer _), (isSyncStorage _); cbn;
    rewrite <- app_assoc; reflexivity.
Qed.

Lemma onMutation_eq s w :
  let cur := default [] (heap w !! store s) in
  let flag := userProvidedKey w in
  onMutation generateStructureId s w =
    (mkSession (initialState s) (o s) (key s) (store s) cur
       (if shouldPersist (o s) (previousState s) cur
        then Some (clock w + debounceTime (o s)) else timer s),
     mkWorld flag
       (migrationBackend generateStructureId (key s) (o s) flag cur
          (backend w))
       (calls w ++ migrationCalls generateStructureId (key s) (o s) flag cur)
       (clock w) (heap w)).
Proof.
  intros cur flag. unfold onMutation, snapshot, read_userProvidedKey,
    call_serialize, storage_set, storage_remove, logCall, debouncedPersist,
    now, migrationBackend, migrationCalls.
  unfold_monad. fold cur. fold flag.
  destruct (structureChanged (key s) (o s) (generateStructureId cur) flag);
    cbn.
  - destruct (isSyncSerializer _), (isSyncStorage _); cbn;
      destruct (shouldPersist (o s) (previousState s) cur); cbn;
      rewrite <- !app_assoc; reflexivity.
  - rewrite app_nil_r.
    destruct (shouldPersist (o s) (previousState s) cur); cbn;
      destruct w; reflexivity.
Qed.

Lemma clear_eq s w :
  clear s w =
    (tt, mkWorld (userProvidedKey w)
           (st_remove (storageStrategy (o s)) (backend w) (key s))
           (calls w ++ [CallRemove (key s)]) (clock w) (heap w)).
Proof.
  unfold clear, storage_remove. destruct (isSyncStorage _); reflexivity.
Qed.

Lemma restore_eq s w :
  let g := st_get (storageStrategy (o s)) (backend w) (key s) in
  let m := mergedOf (initialState s) (serializationStrategy (o s))
             (mergeStrategy (o s)) g in
  restore s w =
    (truthy m,
     mkWorld (userProvidedKey w) (backend w)
       (calls w ++ loadCalls (initialState s) (key s)
                     (serializationStrategy (o s)) g)
       (clock w)
       (if truthy m
        then alter (fun fields => updateStore fields m) (store s) (heap w)
        else heap w)).
Proof.
  intros g m. unfold restore. unfold_monad. rewrite loadMergedState_eq.
  cbn. fold g. fold m. unfold modify.
  destruct (truthy m); reflexivity.
Qed.

Lemma fireTimer_eq s w :
  fireTimer s w =
    match timer s with
    | Some due =>
        if due <=? clock w
        then (mkSession (initialState s) (o s) (key s) (store s)
                (previousState s) None,
              (persistData s w).2)
        else (s, w)
    | None => (s, w)
    end.
Proof.
  unfold fireTimer, now. unfold_monad.
  destruct (timer s) as [due|]; [ | reflexivity ].
  destruct (due <=? clock w); reflexivity.
Qed.

(** *** What no event changes *)

Lemma step_frame s e w :
  let r := step generateStructureId s e w in
  initialState r.1 = initialState s /\ o r.1 = o s /\ key r.1 = key s /\
  store r.1 = store s /\ userProvidedKey r.2 = userProvidedKey w /\
  length (heap r.2) = length (heap w).
Proof.
  destruct e; cbn -[persistData restore clear]; unfold_monad.
  - unfold modify; cbn. rewrite length_alter. done.
  - rewrite onMutation_eq. cbn. done.
  - rewrite fireTimer_eq. unfold sleep; cbn.
    destruct (timer s) as [due|]; [ | cbn; done ].
    destruct (due <=? _); [ | cbn; done ].
    rewrite persistData_eq; cbn.
    destruct (shouldPersist _ _ _); cbn; done.
  - rewrite persistData_eq; cbn.
    destruct (shouldPersist _ _ _); cbn; done.
  - rewrite clear_eq; cbn. done.
  - rewrite restore_eq; cbn.
    destruct (truthy _); rewrite ?length_alter; done.
Qed.

Lemma run_frame es : forall s w,
  let r := run generateStructureId s es w in
  initialState r.1 = initialState s /\ o r.1 = o s /\ key r.1 = key s /\
  store r.1 = store s /\ userProvidedKey r.2 = userProvidedKey w /\
  length (heap r.2) = length (heap w).
Proof.
  induction es as [|e es IH]; intros s w; cbn -[step].
  - unfold_monad. done.
  - unfold_monad.
    destruct (step_frame s e w) as (H1 & H2 & H3 & H4 & H5 & H6).
    destruct (IH (step generateStructureId s e w).1
                 (step generateStructureId s e w).2)
      as (I1 & I2 & I3 & I4 & I5 & I6).
    cbn zeta in *.
    rewrite I1, I2, I3, I4, I5, I6. done.
Qed.

End Equations.

(** ** The handle: [persist], [clear], [restore] *)

Section Handle.

Context {St : Type}.
Variable generateStructureId : obj -> string.

Implicit Types (w : @World St) (s : @Session St) (o : @PersistOptions St).

Lemma truthy_mergedOf (initial : obj) serializer merger (g : jsval) :
  truthy (mergedOf initial serializer merger g) =
    truthy g && truthy (deserialize serializer g)
    && truthy (mg_merge merger initial (deserialize serializer g)).
Proof.
  unfold mergedOf.
  destruct (truthy g); [ | reflexivity ].
  destruct (truthy (deserialize serializer g)); [ | reflexivity ].
  cbn. apply truthy_or_null.
Qed.

Lemma mergedOf_nothing (initial : obj) serializer merger (g : jsval) :
  truthy g && truthy (deserialize serializer g) = false ->
  mergedOf initial serializer merger g = JUndefined.
Proof.
  unfold mergedOf.
  destruct (truthy g); [ | reflexivity ].
  destruct (truthy (deserialize serializer g)); [ discriminate | reflexivity ].
Qed.

(** C6. The handle's [persist()] takes a snapshot [cur] of the store and
    evaluates [shouldPersist(previousState, cur)]: when it is false the
    call returns and nothing at all has changed (no strategy is called);
    when it is true the only calls are [serialize(cur)] and
    [storage.set(key, serialized)] with the session's key, and nothing
    but the backend changes. *)
Theorem persist_handle_writes_iff_shouldPersist s w :
  let cur := (snapshot (store s) w).1 in
  let serialized := serialize (serializationStrategy (o s)) cur in
  persistData s w =
    (tt,
     if shouldPersist (o s) (previousState s) cur
     then mkWorld (userProvidedKey w)
            (st_set (storageStrategy (o s)) (backend w) (key s) serialized)
            (calls w ++ [CallSerialize cur; CallSet (key s) serialized])
            (clock w) (heap w)
     else w).
Proof. intros cur serialized. apply persistData_eq. Qed.

(** C9. [clear()] makes one strategy call, [storage.remove(key)] with
    the session's key; the objects behind the stores (and the flag and
    the clock) are what they were. *)
Theorem clear_removes_key_only s w :
  clear s w =
    (tt, mkWorld (userProvidedKey w)
           (st_remove (storageStrategy (o s)) (backend w) (key s))
           (calls w ++ [CallRemove (key s)]) (clock w) (heap w)).
Proof. apply clear_eq. Qed.

(** C8. [restore()] returns true exactly when [storage.get] at the
    session's key, the deserialization of that data and the merge of it
    with the initial state all gave a truthy value, and then the merged
    state has been applied to the store; otherwise it returns false and
    no store has changed.  A session just created without a key, in a
    process whose storage has nothing under the structural key, exists
    and its [restore()] returns false. *)
Theorem restore_true_iff_loaded :
  (forall s w,
     let g := st_get (storageStrategy (o s)) (backend w) (key s) in
     let d := deserialize (serializationStrategy (o s)) g in
     let m := mg_merge (mergeStrategy (o s)) (initialState s) d in
     (restore s w).1 = truthy g && truthy d && truthy m /\
     heap (restore s w).2 =
       if (restore s w).1
       then alter (fun fields => updateStore fields m) (store s) (heap w)
       else heap w) /\
  (forall (initial : obj) o w,
     o_key o = "" ->
     truthy (st_get (storageStrategy o) (backend w)
               (generateStructureId initial)) = false ->
     exists s w',
       persist generateStructureId initial o w = (Some s, w') /\
       (restore s w').1 = false).
Proof.
  split.
  - intros s w g d m. rewrite restore_eq. cbn.
    rewrite truthy_mergedOf. fold g; fold d; fold m.
    split; [ reflexivity | ].
    destruct (truthy g) eqn:Hg; [ | reflexivity ].
    destruct (truthy d) eqn:Hd; [ | reflexivity ].
    destruct (truthy m) eqn:Hm; [ | reflexivity ].
    cbn. unfold mergedOf. fold g; fold d; fold m.
    rewrite Hg, Hd, (or_null_truthy m Hm). reflexivity.
  - intros initial o w Hk Hg. rewrite persist_eq.
    unfold initialKey. rewrite Hk. cbn.
    rewrite mergedOf_nothing by (rewrite Hg; reflexivity). cbn.
    eexists _, _. split; [ reflexivity | ].
    rewrite restore_eq. cbn.
    rewrite mergedOf_nothing by (rewrite Hg; reflexivity). reflexivity.
Qed.

End Handle.

Section Restore.

Context {St : Type}.
Variable generateStructureId : obj -> string.

Implicit Types (w : @World St) (s : @Session St) (opts : @PersistOptions St).

(** A session made by [persist] keeps the arguments of that call, and
    its store is an object of the heap. *)
Lemma persist_session (initial : obj) opts w0 s w1 :
  persist generateStructureId initial opts w0 = (Some s, w1) ->
  initialState s = initial /\ o s = opts /\
  key s = initialKey generateStructureId initial opts /\
  backend w1 = backend w0 /\
  (store s < length (heap w1))%nat.
Proof.
  rewrite persist_eq. destruct (proxy _) as [fields|]; [ | discriminate ].
  intros H. inversion H; subst; cbn.
  rewrite length_app. cbn. repeat split; lia.
Qed.

End Restore.

(** ** The callback: migration and debounced writes *)

Section Observer.

Context {St : Type}.
Variable generateStructureId : obj -> string.

Implicit Types (w : @World St) (s : @Session St).

Lemma structureChanged_true (k : string) (opts : @PersistOptions St)
    (generatedId : string) (flag : bool) :
  structureChanged k opts generatedId flag = true ->
  generatedId <> k /\ flag = false /\
  updateStorageKeyOnStructureChange opts = true.
Proof.
  unfold structureChanged. intros H.
  apply andb_prop in H as [H Hu]. apply andb_prop in H as [Hk Hf].
  apply negb_true_iff in Hk, Hf. apply String.eqb_neq in Hk.
  repeat split; auto.
Qed.

Lemma migrationOnly_nil k (opts : @PersistOptions St) flag :
  migrationOnly generateStructureId k opts flag [].
Proof. intros k' d []. Qed.

Lemma migrationOnly_app k (opts : @PersistOptions St) flag new1 new2 :
  migrationOnly generateStructureId k opts flag new1 ->
  migrationOnly generateStructureId k opts flag new2 ->
  migrationOnly generateStructureId k opts flag (new1 ++ new2).
Proof.
  intros H1 H2 k' d Hin. apply in_app_or in Hin as [Hin | Hin]; eauto.
Qed.

Lemma migrationOnly_migrationCalls k (opts : @PersistOptions St) flag cur :
  migrationOnly generateStructureId k opts flag
    (migrationCalls generateStructureId k opts flag cur).
Proof.
  unfold migrationCalls. intros k' d Hin.
  destruct (structureChanged _ _ _ _) eqn:E; [ | destruct Hin ].
  apply structureChanged_true in E as (Hne & Hf & Hu).
  destruct Hin as [H | [H | [H | []]]]; try discriminate.
  inversion H; subst. eauto 10.
Qed.

Lemma migrationOnly_loadCalls k (opts : @PersistOptions St) flag
    (initial : obj) k0 serializer g :
  migrationOnly generateStructureId k opts flag
    (loadCalls initial k0 serializer g).
Proof.
  unfold loadCalls. intros k' d Hin.
  destruct Hin as [H | Hin]; [ discriminate | ].
  destruct (truthy g); [ | destruct Hin ].
  destruct Hin as [H | Hin]; [ discriminate | ].
  destruct (truthy _); [ | destruct Hin ].
  destruct Hin as [H | []]. discriminate.
Qed.

Lemma migrationOnly_quietEventCalls s (e : event) w :
  migrationOnly generateStructureId (key s) (o s) (userProvidedKey w)
    (quietEventCalls generateStructureId s e w).
Proof.
  destruct e; cbn.
  - apply migrationOnly_nil.
  - apply migrationOnly_migrationCalls.
  - apply migrationOnly_nil.
  - apply migrationOnly_nil.
  - intros k' d [H | []]. discriminate.
  - apply migrationOnly_loadCalls.
Qed.

Lemma migrationOnly_quietCalls (es : list event) : forall s w,
  migrationOnly generateStructureId (key s) (o s) (userProvidedKey w)
    (quietCalls generateStructureId s es w).
Proof.
  induction es as [|e es IH]; intros s w; cbn -[step quietEventCalls].
  - apply migrationOnly_nil.
  - apply migrationOnly_app; [ apply migrationOnly_quietEventCalls | ].
    destruct (step_frame generateStructureId s e w)
      as (_ & Ho & Hk & _ & Hf & _).
    cbn zeta in Ho, Hk, Hf. rewrite <- Ho, <- Hk, <- Hf. apply IH.
Qed.

(** With [shouldPersist] always false, the calls of one event are those
    of [quietEventCalls]. *)
Lemma step_quiet_calls s (e : event) w :
  (forall a b, shouldPersist (o s) a b = false) ->
  calls (step generateStructureId s e w).2 =
    calls w ++ quietEventCalls generateStructureId s e w.
Proof.
  intros Hsp.
  destruct e; cbn -[persistData restore clear]; unfold_monad.
  - rewrite app_nil_r. reflexivity.
  - rewrite onMutation_eq. reflexivity.
  - rewrite app_nil_r, fireTimer_eq. unfold sleep; cbn.
    destruct (timer s) as [due|]; [ | reflexivity ].
    destruct (due <=? _); [ | reflexivity ].
    rewrite persistData_eq; cbn. rewrite Hsp. reflexivity.
  - rewrite app_nil_r, persistData_eq; cbn. rewrite Hsp. reflexivity.
  - rewrite clear_eq. reflexivity.
  - rewrite restore_eq. reflexivity.
Qed.

Lemma run_quiet_calls (es : list event) : forall s w,
  (forall a b, shouldPersist (o s) a b = false) ->
  calls (run generateStructureId s es w).2 =
    calls w ++ quietCalls generateStructureId s es w.
Proof.
  induction es as [|e es IH]; intros s w Hsp;
    cbn -[step quietEventCalls]; unfold_monad.
  - rewrite app_nil_r. reflexivity.
  - destruct (step_frame generateStructureId s e w) as (_ & Ho & _).
    cbn zeta in Ho.
    rewrite IH by (rewrite Ho; exact Hsp).
    rewrite (step_quiet_calls s e w Hsp), app_assoc. reflexivity.
Qed.

(** C3, amended.  Let [shouldPersist] be false on every pair of
    snapshots.  Then [persist()] returns with nothing changed and no
    strategy called, and so does the debounced writer when its time has
    come; the calls of a notification are the migration calls of the
    snapshot it sees, and no other.  Whatever happens to the session (mutations, notifications,
    time passing, calls of the handle), the only [storage.set] calls are
    migration writes: made under a key recomputed from a snapshot and
    different from the session's key, with that snapshot's
    serialization, while the process-wide flag is off and
    [updateStorageKeyOnStructureChange] is on; when the flag is on or the
    option is off there is no [storage.set] at all.  With a synchronous
    storage and serializer the calls are, event by event, exactly those
    of [quietCalls]: for a notification the migration of the snapshot it
    sees, for [clear()] the removal, for [restore()] the loading, and
    none for a mutation, for time passing or for [persist()]. *)
Theorem shouldPersist_false_only_migration_writes s w (es : list event) :
  (forall a b, shouldPersist (o s) a b = false) ->
  persistData s w = (tt, w) /\
  (forall dt,
     calls (step generateStructureId s (EAdvance dt) w).2 = calls w /\
     backend (step generateStructureId s (EAdvance dt) w).2 = backend w) /\
  calls (step generateStructureId s ENotify w).2 =
    calls w ++
    migrationCalls generateStructureId (key s) (o s) (userProvidedKey w)
      (snapshot (store s) w).1 /\
  exists new,
    calls (run generateStructureId s es w).2 = calls w ++ new /\
    migrationOnly generateStructureId (key s) (o s) (userProvidedKey w) new /\
    (userProvidedKey w = true \/
     updateStorageKeyOnStructureChange (o s) = false ->
     List.filter isSet new = []) /\
    (synchronous (o s) = true ->
     new = quietCalls generateStructureId s es w).
Proof.
  intros Hsp. split; [ | split; [ | split ] ].
  - rewrite persistData_eq. cbn. rewrite Hsp. reflexivity.
  - intros dt. cbn -[persistData]. unfold_monad. rewrite fireTimer_eq.
    unfold sleep; cbn.
    destruct (timer s) as [due|]; [ | split; reflexivity ].
    destruct (due <=? _); [ | split; reflexivity ].
    rewrite persistData_eq; cbn. rewrite Hsp. split; reflexivity.
  - cbn -[onMutation]. rewrite onMutation_eq. reflexivity.
  - exists (quietCalls generateStructureId s es w).
    pose proof (migrationOnly_quietCalls es s w) as Hm.
    split; [ apply run_quiet_calls; exact Hsp | ].
    split; [ exact Hm | ]. split; [ | reflexivity ].
    intros Hoff.
    induction (quietCalls generateStructureId s es w) as [|c new IH];
      [ reflexivity | ].
    assert (Htl : migrationOnly generateStructureId (key s) (o s)
                    (userProvidedKey w) new).
    { intros k d Hin. apply (Hm k d). right. exact Hin. }
    cbn. destruct c; cbn; auto.
    destruct (Hm k data) as (Hf & Hu & _); [ left; reflexivity | ].
    destruct Hoff; congruence.
Qed.

(** *** Debounce *)

(** An assignment to the store followed by its notification, when
    [shouldPersist] allows the write: the callback sees the new fields,
    migrates if line 176 says so, and the timer is due one
    [debounceTime] from now. *)
Lemma mutate_notify s w (fields cur : obj) :
  heap w !! store s = Some cur ->
  shouldPersist (o s) (previousState s) fields = true ->
  let r := run generateStructureId s [EMutate fields; ENotify] w in
  r.1 = mkSession (initialState s) (o s) (key s) (store s) fields
          (Some (clock w + debounceTime (o s))) /\
  calls r.2 =
    calls w ++ migrationCalls generateStructureId (key s) (o s)
                 (userProvidedKey w) fields /\
  heap r.2 !! store s = Some fields /\
  userProvidedKey r.2 = userProvidedKey w /\ clock r.2 = clock w.
Proof.
  intros Hcur Hsp. cbn -[onMutation]. unfold_monad. unfold modify. cbn.
  rewrite onMutation_eq. cbn.
  rewrite list_lookup_alter_eq, Hcur. cbn. rewrite Hsp. done.
Qed.

Lemma last_cons (x d : obj) (l : list obj) :
  List.last (x :: l) d = List.last l x.
Proof.
  revert x d. induction l as [|y l IH]; intros x d; [ reflexivity | ].
  change (List.last (x :: y :: l) d) with (List.last (y :: l) d).
  rewrite (IH y d), (IH y x). reflexivity.
Qed.

(** After a notification that armed the timer: later mutations less
    than one [debounceTime] apart keep moving it, and the silence at
    the end lets it fire once. *)
Lemma burst_tail (wait : Z) (rest : list (Z * obj)) : forall s w (cur : obj),
  (forall a b, shouldPersist (o s) a b = true) ->
  timer s = Some (clock w + debounceTime (o s)) ->
  heap w !! store s = Some cur ->
  Forall (fun p => 0 <= p.1 < debounceTime (o s)) rest ->
  debounceTime (o s) <= wait ->
  calls (run generateStructureId s
           (flat_map (fun p => [EAdvance p.1; EMutate p.2; ENotify]) rest
            ++ [EAdvance wait]) w).2 =
    calls w
    ++ flat_map (migrationCalls generateStructureId (key s) (o s)
                   (userProvidedKey w)) (map snd rest)
    ++ writeCalls (key s) (o s) (List.last (map snd rest) cur).
Proof.
  induction rest as [|[dt fields] rest IH];
    intros s w cur Hsp Htimer Hcur Hgaps Hwait.
  - cbn -[persistData]. unfold_monad. rewrite fireTimer_eq. unfold sleep.
    cbn -[persistData]. rewrite Htimer.
    destruct (Z.leb_spec (clock w + debounceTime (o s)) (clock w + wait));
      [ | lia ].
    rewrite persistData_eq. cbn. rewrite Hcur, Hsp. reflexivity.
  - apply Forall_cons in Hgaps as [Hdt Hgaps]. cbn in Hdt.
    change (map snd ((dt, fields) :: rest)) with (fields :: map snd rest).
    rewrite last_cons.
    cbn -[onMutation fireTimer List.last]. unfold_monad.
    rewrite fireTimer_eq. unfold sleep. cbn -[onMutation List.last].
    rewrite Htimer.
    destruct (Z.leb_spec (clock w + debounceTime (o s)) (clock w + dt));
      [ lia | ].
    unfold modify. cbn -[onMutation List.last]. rewrite onMutation_eq.
    cbn -[List.last].
    rewrite list_lookup_alter_eq, Hcur. cbn -[List.last]. rewrite Hsp.
    erewrite IH; cbn -[List.last]; try eassumption.
    + rewrite <- !app_assoc. reflexivity.
    + reflexivity.
    + rewrite list_lookup_alter_eq, Hcur. reflexivity.
Qed.

Lemma gaps_below (D : Z) (rest : list (Z * obj)) :
  Forall (fun p => 0 <= p.1) rest ->
  sumZ (map fst rest) < D ->
  Forall (fun p => 0 <= p.1 < D) rest.
Proof.
  induction rest as [|[dt x] rest IH]; intros Hpos Hsum; [ constructor | ].
  apply Forall_cons in Hpos as [Hdt Hpos]. cbn [fst] in Hdt.
  change (sumZ (map fst ((dt, x) :: rest)))
    with (dt + sumZ (map fst rest)) in Hsum.
  assert (0 <= sumZ (map fst rest)).
  { clear -Hpos. induction Hpos as [|[a b] l Ha _ IHl]; [ reflexivity | ].
    change (sumZ (map fst ((a, b) :: l))) with (a + sumZ (map fst l)).
    cbn [fst] in Ha. lia. }
  constructor; [ cbn [fst]; lia | apply IH; [ exact Hpos | lia ] ].
Qed.

(** The calls of a burst, migrations included. *)
Lemma burst_calls s w (first : obj) (rest : list (Z * obj)) (wait : Z) :
  (store s < length (heap w))%nat ->
  (forall a b, shouldPersist (o s) a b = true) ->
  Forall (fun p => 0 <= p.1) rest ->
  sumZ (map fst rest) < debounceTime (o s) ->
  debounceTime (o s) <= wait ->
  calls (run generateStructureId s (burst first rest wait) w).2
    = calls w
      ++ flat_map (migrationCalls generateStructureId (key s) (o s)
                     (userProvidedKey w)) (first :: map snd rest)
      ++ writeCalls (key s) (o s) (List.last (map snd rest) first).
Proof.
  intros Hlt Hsp Hpos Hsum Hwait.
  destruct (lookup_lt_is_Some_2 (heap w) (store s) Hlt) as [cur Hcur].
  destruct (mutate_notify s w first cur Hcur (Hsp _ _))
    as (Hs & Hc & Hh & Hf & Hclk).
  unfold burst.
  change ([EMutate first; ENotify] ++ ?l)
    with (EMutate first :: ENotify :: l).
  set (r := run generateStructureId s [EMutate first; ENotify] w) in *.
  assert (Hrun : forall l,
    run generateStructureId s (EMutate first :: ENotify :: l) w =
    run generateStructureId r.1 l r.2) by reflexivity.
  rewrite Hrun.
  rewrite (burst_tail wait rest r.1 r.2 first).
  - rewrite Hs, Hc, Hf. cbn -[List.last].
    rewrite <- !app_assoc. reflexivity.
  - rewrite Hs. cbn. exact Hsp.
  - rewrite Hs, Hclk. reflexivity.
  - rewrite Hs at 1. exact Hh.
  - rewrite Hs. cbn. apply gaps_below; assumption.
  - rewrite Hs. cbn. exact Hwait.
Qed.

(** C5, amended.  Take a session of the world ([store s] is one of its
    objects) whose [shouldPersist] is always true and whose debounce
    time is [w].  Let the store be mutated N >= 1 times, each mutation
    notified, the gaps adding up to less than [w], none of the mutations
    being one for which line 176 holds (no migration), and then at least
    [w] milliseconds pass.  The calls made are exactly one
    [serialize] and one [storage.set], under the session's key, of the
    snapshot after the last mutation.  (Without a migration the
    callback has no [await], so this is so for asynchronous strategies
    as well.) *)
Theorem burst_is_written_once s w (first : obj) (rest : list (Z * obj))
    (wait : Z) :
  (store s < length (heap w))%nat ->
  (forall a b, shouldPersist (o s) a b = true) ->
  (forall cur, In cur (first :: map snd rest) ->
     structureChanged (key s) (o s) (generateStructureId cur)
       (userProvidedKey w) = false) ->
  Forall (fun p => 0 <= p.1) rest ->
  sumZ (map fst rest) < debounceTime (o s) ->
  debounceTime (o s) <= wait ->
  let final := List.last (map snd rest) first in
  calls (run generateStructureId s (burst first rest wait) w).2 =
    calls w ++
    [CallSerialize final;
     CallSet (key s) (serialize (serializationStrategy (o s)) final)].
Proof.
  intros Hlt Hsp Hnone Hpos Hsum Hwait final.
  rewrite burst_calls by assumption.
  assert (Hnil : forall l : list obj,
    (forall cur, In cur l ->
       structureChanged (key s) (o s) (generateStructureId cur)
         (userProvidedKey w) = false) ->
    flat_map (migrationCalls generateStructureId (key s) (o s)
                (userProvidedKey w)) l = []).
  { induction l as [|x l IHl]; intros Hl; [ reflexivity | ].
    cbn. unfold migrationCalls at 1. rewrite (Hl x) by (left; reflexivity).
    cbn. apply IHl. intros cur Hin. apply Hl. right. exact Hin. }
  rewrite (Hnil _ Hnone). reflexivity.
Qed.

End Observer.

(** ** The scenarios, evaluated *)

Lemma persist_keyless (sp : obj -> obj -> bool) (upd : bool) :
  persist shapeId stateA (demoOptions "" sp upd demoTable shallowMerge)
    (worldWith "L0:779")
  = (Some (keylessSession sp upd), keylessWorld).
Proof. reflexivity. Qed.

(** C1 (the code departs from it).  With the default options and nothing
    in storage, [persist(initialState)] asks storage for the structural
    key and creates the store from [undefined]: whatever [initialState]
    is, for instance [{count:1, text:"hello"}], the store starts without
    any field. *)
Theorem persist_without_stored_data_starts_empty (initial : obj) :
  observe
    (scenario initial
       (defaultOptions memoryStorage (tableSerializer demoTable) shallowMerge)
       [] (initialWorld ∅))
  = Some (shapeId initial, [], [CallGet (shapeId initial)],
          [None; None; None]).
Proof.
  unfold observe, scenario. rewrite persist_eq. reflexivity.
Qed.

(** C2 (the code departs from it).  A session without a key whose store
    goes from [{a:1}] to [{a:1, b:"x"}]: the callback serializes the
    snapshot, removes the old key's entry and writes under the new key
    ["L0:1567"], but the session's key is still ["L0:779"], and the
    debounced write that follows puts the data back under it. *)
Theorem migration_keeps_writing_under_old_key :
  shapeId stateA = "L0:779" /\ shapeId stateAB = "L0:1567" /\
  observe (migrationScenario (always true))
  = Some ("L0:779", stateAB,
          [CallGet "L0:779"; CallDeserialize (JStr "{a:1;}");
           CallMerge stateA (JObj stateA);
           CallSerialize stateAB; CallRemove "L0:779";
           CallSet "L0:1567" (JStr "{a:1;b:'x';}");
           CallSerialize stateAB; CallSet "L0:779" (JStr "{a:1;b:'x';}")],
          [None; Some (JStr "{a:1;b:'x';}"); Some (JStr "{a:1;b:'x';}")]).
Proof. repeat split; vm_compute; reflexivity. Qed.

(** C4 (the code departs from it).  A session with the explicit key ["k"]
    whose store goes from [{a:1}] to [{a:1, b:"x"}].  Created after a
    session without a key, its callback removes the entry at ["k"] and
    writes under the derived key ["L0:1567"]; alone in its process it
    only ever writes at ["k"]. *)
Theorem explicit_key_migrates_after_keyless_session :
  observe twoSessionsScenario
  = Some ("k", stateAB,
          [CallGet "L0:8055"; CallGet "k"; CallDeserialize (JStr "{a:1;}");
           CallMerge stateA (JObj stateA);
           CallSerialize stateAB; CallRemove "k";
           CallSet "L0:1567" (JStr "{a:1;b:'x';}");
           CallSerialize stateAB; CallSet "k" (JStr "{a:1;b:'x';}")],
          [Some (JStr "{a:1;b:'x';}"); None; Some (JStr "{a:1;b:'x';}")])
  /\
  observe oneSessionScenario
  = Some ("k", stateAB,
          [CallGet "k"; CallDeserialize (JStr "{a:1;}");
           CallMerge stateA (JObj stateA);
           CallSerialize stateAB; CallSet "k" (JStr "{a:1;b:'x';}")],
          [Some (JStr "{a:1;b:'x';}"); None; None]).
Proof. split; vm_compute; reflexivity. Qed.

(** C3 as stated fails: [shouldPersist] is always false, the session has
    no key, and the mutation that adds a field is followed by a
    [storage.set] under the new structural key. *)
Lemma shouldPersist_false_migration_still_writes :
  (forall a b : obj, always false a b = false) /\
  setCalls (migrationScenario (always false))
  = Some [CallSet "L0:1567" (JStr "{a:1;b:'x';}")].
Proof. split; [ reflexivity | vm_compute; reflexivity ]. Qed.

(** C5 as stated fails: [shouldPersist] is always true, the debounce time
    is 100 ms, and one mutation (N = 1) that adds a field to the store of
    a session without a key is followed by two [storage.set] calls. *)
Lemma one_mutation_two_writes :
  setCalls
    (scenario stateA (demoOptions "" (always true) true demoTable shallowMerge)
       (burst stateAB [] 100) (worldWith "L0:779"))
  = Some [CallSet "L0:1567" (JStr "{a:1;b:'x';}");
          CallSet "L0:779" (JStr "{a:1;b:'x';}")].
Proof. vm_compute. reflexivity. Qed.

(** C10 (the code departs from it).  A falsy merge result is not
    treated like an absent stored value at initialization.  With a merge
    strategy whose result is [null] and data stored under ["k"],
    line 134 makes [mergedState] [null] and [persist] ends in the
    exception of [proxy]; with nothing stored, the same call returns a
    session. *)
Lemma null_merge_is_not_absent_at_init :
  observe
    (scenario stateA (demoOptions "k" (always true) true demoTable nullMerge)
       [] (worldWith "k"))
  = None /\
  observe
    (scenario stateA (demoOptions "k" (always true) true demoTable nullMerge)
       [] (initialWorld ∅))
  = Some ("k", [], [CallGet "k"], [None; None; None]).
Proof. split; vm_compute; reflexivity. Qed.


(** ** The theorems at work on the scenarios *)

(** C3 on the session without a key whose [shouldPersist] is always
    false and whose [updateStorageKeyOnStructureChange] is off. *)
Lemma shouldPersist_false_only_migration_writes_witness :
  let s := keylessSession (always false) false in
  let es := [EMutate stateAB; ENotify; EAdvance 100; EPersist] in
  persistData s keylessWorld = (tt, keylessWorld) /\
  (forall dt,
     calls (step shapeId s (EAdvance dt) keylessWorld).2
       = calls keylessWorld /\
     backend (step shapeId s (EAdvance dt) keylessWorld).2
       = backend keylessWorld) /\
  calls (step shapeId s ENotify keylessWorld).2 =
    calls keylessWorld ++
    migrationCalls shapeId (key s) (o s) false
      (snapshot (store s) keylessWorld).1 /\
  exists new,
    calls (run shapeId s es keylessWorld).2 = calls keylessWorld ++ new /\
    migrationOnly shapeId (key s) (o s) false new /\
    (false = true \/ updateStorageKeyOnStructureChange (o s) = false ->
     List.filter isSet new = []) /\
    (synchronous (o s) = true -> new = quietCalls shapeId s es keylessWorld).
Proof.
  apply (shouldPersist_false_only_migration_writes shapeId
           (keylessSession (always false) false) keylessWorld
           [EMutate stateAB; ENotify; EAdvance 100; EPersist]).
  intros a b. reflexivity.
Defined.

(** C5 on three mutations 10 and 20 ms apart, with a debounce time of
    100 ms and migration switched off. *)
Lemma burst_is_written_once_witness :
  let s := keylessSession (always true) false in
  calls (run shapeId s (burst stateAB [(10, stateA); (20, stateAB)] 100)
           keylessWorld).2
    = calls keylessWorld ++
      [CallSerialize stateAB;
       CallSet (key s) (serialize (serializationStrategy (o s)) stateAB)].
Proof.
  apply (burst_is_written_once shapeId
           (keylessSession (always true) false) keylessWorld
           stateAB [(10, stateA); (20, stateAB)] 100).
  - cbn. lia.
  - intros a b. reflexivity.
  - intros cur _. unfold structureChanged. cbn. apply andb_false_r.
  - repeat constructor; cbn; lia.
  - reflexivity.
  - cbn. lia.
Defined.

(** C8 on the README's first call: no key, nothing stored. *)
Lemma restore_true_iff_loaded_witness :
  exists s w',
    persist shapeId stateCT
      (defaultOptions memoryStorage (tableSerializer demoTable) shallowMerge)
      (initialWorld ∅) = (Some s, w') /\
    (restore s w').1 = false.
Proof.
  apply (proj2 (restore_true_iff_loaded shapeId)); reflexivity.
Defined.

(** * Further properties of [persist] and of the session *)

Section Sessions.

Context {St : Type}.
Variable generateStructureId : obj -> string.

Implicit Types (w : @World St) (s : @Session St) (opts : @PersistOptions St).

Lemma persist_flag (initial : obj) opts w :
  userProvidedKey (persist generateStructureId initial opts w).2 =
    flagAfterPersist opts (userProvidedKey w).
Proof. rewrite persist_eq. destruct (proxy _); reflexivity. Qed.

Lemma perform_flag (a : action) w :
  userProvidedKey w = false ->
  userProvidedKey (perform generateStructureId a w).2 = false.
Proof.
  intros Hw. destruct a as [initial opts | s es]; cbn; unfold_monad.
  - rewrite persist_flag, Hw. unfold flagAfterPersist.
    destruct (String.eqb _ _); reflexivity.
  - destruct (run_frame generateStructureId es s w) as (_ & _ & _ & _ & Hf & _).
    cbn zeta in Hf. rewrite Hf. exact Hw.
Qed.

Lemma performAll_flag (acts : list action) : forall w,
  userProvidedKey w = false ->
  userProvidedKey (performAll generateStructureId acts w).2 = false.
Proof.
  induction acts as [|a acts IH]; intros w Hw; cbn -[perform]; unfold_monad.
  - exact Hw.
  - apply IH. apply perform_flag. exact Hw.
Qed.

(** X1. The module-level flag [userProvidedKey] only ever goes from true
    to false.  Whatever the program does next (more [persist] calls with
    or without a key, anything on any session), the flag stays false once
    it is false; and one [persist] call without a key makes it false,
    also when that call ends in the exception of [proxy]. *)
Theorem userProvidedKey_never_set_again :
  (forall (acts : list action) w,
     userProvidedKey w = false ->
     userProvidedKey (performAll generateStructureId acts w).2 = false) /\
  (forall (initial : obj) opts (acts : list action) w,
     o_key opts = "" ->
     userProvidedKey
       (performAll generateStructureId (ACreate initial opts :: acts) w).2
     = false).
Proof.
  split.
  - intros acts w. apply performAll_flag.
  - intros initial opts acts w Hk.
    change (performAll generateStructureId (ACreate initial opts :: acts) w)
      with (performAll generateStructureId acts
              (perform generateStructureId (ACreate initial opts) w).2).
    apply performAll_flag. cbn. unfold_monad.
    rewrite persist_flag. unfold flagAfterPersist. rewrite Hk. reflexivity.
Qed.

(** X2. The handle works on the key computed when the session was
    created, whatever has happened to the session since: [clear()]
    removes that key, [restore()] starts by reading it, and [persist()]
    writes under it when [shouldPersist] allows. *)
Theorem handle_keeps_creation_key (initial : obj) opts w0 s w1
    (es : list event) :
  persist generateStructureId initial opts w0 = (Some s, w1) ->
  let k := initialKey generateStructureId initial opts in
  let s2 := (run generateStructureId s es w1).1 in
  let w2 := (run generateStructureId s es w1).2 in
  let cur := (snapshot (store s2) w2).1 in
  key s2 = k /\
  calls (clear s2 w2).2 = calls w2 ++ [CallRemove k] /\
  (exists rest, calls (restore s2 w2).2 = calls w2 ++ CallGet k :: rest) /\
  calls (persistData s2 w2).2 =
    calls w2 ++
    (if shouldPersist opts (previousState s2) cur
     then writeCalls k opts cur else []).
Proof.
  intros Hp k s2 w2 cur.
  destruct (persist_session _ _ _ _ _ _ Hp) as (_ & Ho & Hk & _ & _).
  destruct (run_frame generateStructureId es s w1) as (_ & Ro & Rk & _).
  cbn zeta in Ro, Rk. fold s2 in Ro, Rk.
  assert (Hk2 : key s2 = k) by (rewrite Rk; exact Hk).
  assert (Ho2 : o s2 = opts) by (rewrite Ro; exact Ho).
  split; [ exact Hk2 | ]. split; [ | split ].
  - rewrite clear_eq. cbn. rewrite Hk2. reflexivity.
  - rewrite restore_eq. cbn. unfold loadCalls. rewrite Hk2. eauto.
  - rewrite persistData_eq. fold cur. rewrite Ho2, Hk2.
    unfold snapshot in cur. cbn in cur. fold cur.
    destruct (shouldPersist opts (previousState s2) cur); cbn;
      [ reflexivity | rewrite app_nil_r; reflexivity ].
Qed.

End Sessions.

Section Writes.

Context {St : Type}.
Variable generateStructureId : obj -> string.

Implicit Types (w : @World St) (s : @Session St) (opts : @PersistOptions St).

Lemma migrationCalls_off (k : string) opts (flag : bool) (cur : obj) :
  flag = true \/ updateStorageKeyOnStructureChange opts = false ->
  migrationCalls generateStructureId k opts flag cur = [].
Proof.
  intros Hoff. unfold migrationCalls.
  destruct (structureChanged _ _ _ _) eqn:E; [ | reflexivity ].
  apply structureChanged_true in E as (_ & Hf & Hu).
  destruct Hoff; congruence.
Qed.

Ltac own_key :=
  unfold ownKeyOnly;
  repeat (constructor; [ first [ left; reflexivity | right; reflexivity ] | ]);
  constructor.

Lemma ownKeyOnly_loadCalls (k : string) (initial : obj) serializer g :
  ownKeyOnly k (loadCalls initial k serializer g).
Proof.
  unfold ownKeyOnly, loadCalls.
  constructor; [ right; reflexivity | ].
  destruct (truthy g); [ | constructor ].
  constructor; [ left; reflexivity | ].
  destruct (truthy _); [ | constructor ].
  constructor; [ left; reflexivity | constructor ].
Qed.

Lemma step_ownKeyOnly s (e : event) w :
  userProvidedKey w = true \/
  updateStorageKeyOnStructureChange (o s) = false ->
  exists new,
    calls (step generateStructureId s e w).2 = calls w ++ new /\
    ownKeyOnly (key s) new.
Proof.
  intros Hoff.
  destruct e; cbn -[persistData restore clear]; unfold_monad.
  - exists []. rewrite app_nil_r. split; [ reflexivity | constructor ].
  - rewrite onMutation_eq. cbn. rewrite migrationCalls_off by exact Hoff.
    exists []. split; [ reflexivity | constructor ].
  - rewrite fireTimer_eq. unfold sleep; cbn.
    destruct (timer s) as [due|];
      [ | exists []; rewrite app_nil_r; split; [ reflexivity | constructor ] ].
    destruct (due <=? _);
      [ | exists []; rewrite app_nil_r; split; [ reflexivity | constructor ] ].
    rewrite persistData_eq; cbn.
    destruct (shouldPersist _ _ _); cbn.
    + eexists. split; [ reflexivity | ].
      own_key.
    + exists []. rewrite app_nil_r. split; [ reflexivity | constructor ].
  - rewrite persistData_eq; cbn.
    destruct (shouldPersist _ _ _); cbn.
    + eexists. split; [ reflexivity | ].
      own_key.
    + exists []. rewrite app_nil_r. split; [ reflexivity | constructor ].
  - rewrite clear_eq; cbn. eexists. split; [ reflexivity | ].
    own_key.
  - rewrite restore_eq; cbn. eexists. split; [ reflexivity | ].
    apply ownKeyOnly_loadCalls.
Qed.

(** X4. While the flag [userProvidedKey] is on (no [persist] without a
    key has run in the process), or when
    [updateStorageKeyOnStructureChange] is off, a session touches one
    storage key only: every [get], [set] and [remove] of its whole life
    names the session's key, whatever the store's structure becomes. *)
Theorem session_touches_own_key_only s w (es : list event) :
  userProvidedKey w = true \/
  updateStorageKeyOnStructureChange (o s) = false ->
  exists new,
    calls (run generateStructureId s es w).2 = calls w ++ new /\
    Forall (fun c => callKey c = None \/ callKey c = Some (key s)) new.
Proof.
  revert s w. induction es as [|e es IH]; intros s w Hoff;
    cbn -[step]; unfold_monad.
  - exists []. rewrite app_nil_r. split; [ reflexivity | constructor ].
  - destruct (step_ownKeyOnly s e w Hoff) as (new1 & E1 & F1).
    destruct (step_frame generateStructureId s e w)
      as (_ & Ho & Hk & _ & Hf & _).
    cbn zeta in Ho, Hk, Hf.
    destruct (IH (step generateStructureId s e w).1
                 (step generateStructureId s e w).2) as (new2 & E2 & F2).
    { rewrite Ho, Hf. exact Hoff. }
    rewrite Hk in F2.
    exists (new1 ++ new2). rewrite E2, E1, app_assoc.
    split; [ reflexivity | ]. apply Forall_app. split; assumption.
Qed.

(** With a [shouldPersist] that is false on two equal snapshots, and the
    callback having seen the store as it is, one more event makes the
    calls of [quietEventCalls] and leaves the session in such a state
    again (when there is no change waiting for its notification
    afterwards). *)
Lemma step_notified s (e : event) w (dirty : bool) :
  (forall x, shouldPersist (o s) x x = false) ->
  (dirty = false -> previousState s = default [] (heap w !! store s)) ->
  (match e with
   | EAdvance _ | EPersist => dirty = false
   | _ => True
   end) ->
  let r := step generateStructureId s e w in
  calls r.2 = calls w ++ quietEventCalls generateStructureId s e w /\
  ((match e with
    | EMutate _ | ERestore => true
    | ENotify | EAdvance _ | EPersist => false
    | EClear => dirty
    end) = false ->
   previousState r.1 = default [] (heap r.2 !! store r.1)).
Proof.
  intros Hsp Hinv He.
  destruct e; cbn -[persistData restore clear]; unfold_monad.
  - split; [ | discriminate ]. rewrite app_nil_r. reflexivity.
  - rewrite onMutation_eq. cbn. split; reflexivity.
  - specialize (Hinv He).
    assert (Hq : (persistData s (sleep dt w).2) = (tt, (sleep dt w).2)).
    { rewrite persistData_eq. unfold sleep; cbn. rewrite <- Hinv, Hsp.
      reflexivity. }
    rewrite fireTimer_eq, app_nil_r.
    destruct (timer s) as [due|].
    + destruct (due <=? _).
      * rewrite Hq. unfold sleep; cbn. split; [ reflexivity | ].
        intros _; exact Hinv.
      * unfold sleep; cbn. split; [ reflexivity | intros _; exact Hinv ].
    + unfold sleep; cbn. split; [ reflexivity | intros _; exact Hinv ].
  - specialize (Hinv He). rewrite persistData_eq, app_nil_r. cbn.
    rewrite <- Hinv, Hsp. split; [ reflexivity | intros _; exact Hinv ].
  - rewrite clear_eq. cbn. split; [ reflexivity | exact Hinv ].
  - rewrite restore_eq. cbn. split; [ reflexivity | discriminate ].
Qed.

Lemma run_notified (es : list event) : forall s w (dirty : bool),
  (forall x, shouldPersist (o s) x x = false) ->
  (dirty = false -> previousState s = default [] (heap w !! store s)) ->
  notifiedInTime dirty es = true ->
  calls (run generateStructureId s es w).2 =
    calls w ++ quietCalls generateStructureId s es w.
Proof.
  induction es as [|e es IH]; intros s w dirty Hsp Hinv Hes;
    cbn -[step quietEventCalls]; unfold_monad.
  - rewrite app_nil_r. reflexivity.
  - assert (He : match e with
                 | EAdvance _ | EPersist => dirty = false
                 | _ => True
                 end).
    { destruct e; cbn in Hes; try exact I;
        destruct dirty; try reflexivity; discriminate. }
    destruct (step_notified s e w dirty Hsp Hinv He) as (E1 & Hinv').
    destruct (step_frame generateStructureId s e w) as (_ & Ho & _).
    cbn zeta in Ho, Hinv', E1.
    rewrite (IH (step generateStructureId s e w).1
                (step generateStructureId s e w).2
                (match e with
                 | EMutate _ | ERestore => true
                 | ENotify | EAdvance _ | EPersist => false
                 | EClear => dirty
                 end)).
    + rewrite E1, app_assoc. reflexivity.
    + rewrite Ho. exact Hsp.
    + exact Hinv'.
    + destruct e; cbn in Hes; try exact Hes;
        apply andb_prop in Hes as [_ Hes]; exact Hes.
Qed.

(** X5. [persistData] evaluates [shouldPersist(previousState, snapshot)]
    again when the debounce timer fires, and by then the callback has
    made [previousState] the snapshot itself.  So with a synchronous
    storage and serializer and a predicate that is false on two equal
    snapshots (such as "something changed"), in a session whose
    notifications are delivered before time passes, the debounced writer
    and [persist()] call no strategy at all: the calls are, event by
    event, those of [quietCalls] (migration for a notification, the
    removal for [clear()], the loading for [restore()], nothing for a
    mutation, for time passing or for [persist()]), and the only
    [storage.set] calls are those of migrations. *)
Theorem change_detecting_shouldPersist_never_writes s w (es : list event) :
  synchronous (o s) = true ->
  (forall x, shouldPersist (o s) x x = false) ->
  previousState s = (snapshot (store s) w).1 ->
  notifiedInTime false es = true ->
  calls (run generateStructureId s es w).2 =
    calls w ++ quietCalls generateStructureId s es w /\
  migrationOnly generateStructureId (key s) (o s) (userProvidedKey w)
    (quietCalls generateStructureId s es w).
Proof.
  intros _ Hsp Hinv Hes. split.
  - apply (run_notified es s w false Hsp); [ intros _; exact Hinv | exact Hes ].
  - apply migrationOnly_quietCalls.
Qed.


End Writes.

Section RoundTrips.

Context {St : Type}.
Variable generateStructureId : obj -> string.

Implicit Types (w : @World St) (s : @Session St) (opts : @PersistOptions St).

(** X7. What one session persists, the next [persist] call loads.  Let
    [persist()] of a session write the snapshot [cur], with a storage
    that gives back what was just set, a serialization that is not the
    empty string and deserializes to [cur] again.  Then a [persist] call
    that uses the same storage and serializer and arrives at the same
    key returns a session whose store starts as the merge of its own
    initial state with [cur]. *)
Theorem persisted_snapshot_is_loaded_by_next_persist s w
    (initial' : obj) opts' (fields : obj) :
  let cur := (snapshot (store s) w).1 in
  let data := serialize (serializationStrategy (o s)) cur in
  let w1 := (persistData s w).2 in
  shouldPersist (o s) (previousState s) cur = true ->
  storageStrategy opts' = storageStrategy (o s) ->
  serializationStrategy opts' = serializationStrategy (o s) ->
  initialKey generateStructureId initial' opts' = key s ->
  st_get (storageStrategy (o s))
    (st_set (storageStrategy (o s)) (backend w) (key s) data) (key s) = data ->
  truthy data = true ->
  deserialize (serializationStrategy (o s)) data = JObj cur ->
  mg_merge (mergeStrategy opts') initial' (JObj cur) = JObj fields ->
  exists s' w2,
    persist generateStructureId initial' opts' w1 = (Some s', w2) /\
    (snapshot (store s') w2).1 = fields /\
    previousState s' = fields.
Proof.
  intros cur data w1 Hsp Hsto Hser Hkey Hget Htr Hdes Hmerge.
  subst w1. rewrite persistData_eq.
  unfold snapshot in cur. cbn in cur. fold cur. rewrite Hsp.
  rewrite persist_eq. cbn. rewrite Hkey, Hsto, Hser. fold data.
  rewrite Hget. unfold mergedOf. rewrite Htr, Hdes. cbn [truthy].
  rewrite Hmerge. cbn.
  eexists _, _. split; [ reflexivity | ].
  unfold snapshot. cbn. rewrite list_lookup_middle by reflexivity.
  split; reflexivity.
Qed.

(** X8. After [clear()], with a storage that has nothing under a key
    just removed, [restore()] reads the key, finds nothing, calls neither
    [deserialize] nor [merge], returns false and leaves every store as it
    was before the [clear()]. *)
Theorem restore_after_clear_finds_nothing s w :
  truthy (st_get (storageStrategy (o s))
            (st_remove (storageStrategy (o s)) (backend w) (key s)) (key s))
    = false ->
  let w1 := (clear s w).2 in
  (restore s w1).1 = false /\
  heap (restore s w1).2 = heap w /\
  calls (restore s w1).2 = calls w ++ [CallRemove (key s); CallGet (key s)].
Proof.
  intros Hg w1. subst w1. rewrite clear_eq, restore_eq. cbn.
  unfold mergedOf, loadCalls. rewrite Hg. cbn.
  rewrite <- app_assoc. done.
Qed.

End RoundTrips.

Section Spacing.

Context {St : Type}.
Variable generateStructureId : obj -> string.

Implicit Types (w : @World St) (s : @Session St).

(** After a notification that armed the timer: every later mutation
    comes when the timer is due, so the snapshot before it is written
    first. *)
Lemma spaced_tail (wait : Z) (rest : list (Z * obj)) : forall s w (cur : obj),
  (forall a b, shouldPersist (o s) a b = true) ->
  timer s = Some (clock w + debounceTime (o s)) ->
  heap w !! store s = Some cur ->
  Forall (fun p => debounceTime (o s) <= p.1) rest ->
  debounceTime (o s) <= wait ->
  calls (run generateStructureId s
           (flat_map (fun p => [EAdvance p.1; EMutate p.2; ENotify]) rest
            ++ [EAdvance wait]) w).2 =
    calls w
    ++ spacedCalls generateStructureId (key s) (o s) (userProvidedKey w)
         cur rest
    ++ writeCalls (key s) (o s) (List.last (map snd rest) cur).
Proof.
  induction rest as [|[dt fields] rest IH];
    intros s w cur Hsp Htimer Hcur Hgaps Hwait.
  - cbn -[persistData]. unfold_monad. rewrite fireTimer_eq. unfold sleep.
    cbn -[persistData]. rewrite Htimer.
    destruct (Z.leb_spec (clock w + debounceTime (o s)) (clock w + wait));
      [ | lia ].
    rewrite persistData_eq. cbn. rewrite Hcur, Hsp. reflexivity.
  - apply Forall_cons in Hgaps as [Hdt Hgaps]. cbn [fst] in Hdt.
    change (map snd ((dt, fields) :: rest)) with (fields :: map snd rest).
    rewrite last_cons.
    cbn -[onMutation fireTimer persistData List.last]. unfold_monad.
    rewrite fireTimer_eq. unfold sleep.
    cbn -[onMutation persistData List.last]. rewrite Htimer.
    destruct (Z.leb_spec (clock w + debounceTime (o s)) (clock w + dt));
      [ | lia ].
    rewrite persistData_eq. cbn -[onMutation List.last].
    rewrite Hcur. cbn -[onMutation List.last]. rewrite Hsp.
    unfold modify. cbn -[onMutation List.last]. rewrite onMutation_eq.
    cbn -[List.last].
    rewrite list_lookup_alter_eq, Hcur. cbn -[List.last]. rewrite Hsp.
    erewrite IH; cbn -[List.last]; try eassumption.
    + rewrite <- !app_assoc. reflexivity.
    + reflexivity.
    + rewrite list_lookup_alter_eq, Hcur. reflexivity.
Qed.

Lemma spacedCalls_sets (k : string) (opts : @PersistOptions St) (flag : bool)
    (rest : list (Z * obj)) : forall cur : obj,
  flag = true \/ updateStorageKeyOnStructureChange opts = false ->
  length (List.filter isSet
            (spacedCalls generateStructureId k opts flag cur rest))
  = length rest.
Proof.
  induction rest as [|[dt fields] rest IH]; intros cur Hoff; [ reflexivity | ].
  cbn [spacedCalls snd]. rewrite (migrationCalls_off _ _ _ _ _ Hoff).
  cbn. rewrite IH by exact Hoff. reflexivity.
Qed.

(** X9. No coalescing across a full debounce time.  With a synchronous
    storage and serializer and [shouldPersist]
    always true, when every mutation comes at least one [debounceTime]
    after the one before it, and as much time passes at the end, each
    mutation's snapshot is written by the debounced [persistData] before
    the next mutation is handled: with migration off (the flag on, or
    the option off) the N mutations make exactly N [storage.set] calls. *)
Theorem spaced_mutations_are_each_written s w (first : obj)
    (rest : list (Z * obj)) (wait : Z) :
  synchronous (o s) = true ->
  (store s < length (heap w))%nat ->
  (forall a b, shouldPersist (o s) a b = true) ->
  Forall (fun p => debounceTime (o s) <= p.1) rest ->
  debounceTime (o s) <= wait ->
  let flag := userProvidedKey w in
  let new :=
    migrationCalls generateStructureId (key s) (o s) flag first
    ++ spacedCalls generateStructureId (key s) (o s) flag first rest
    ++ writeCalls (key s) (o s) (List.last (map snd rest) first) in
  calls (run generateStructureId s (burst first rest wait) w).2
    = calls w ++ new /\
  (flag = true \/ updateStorageKeyOnStructureChange (o s) = false ->
   length (List.filter isSet new) = S (length rest)).
Proof.
  intros _ Hlt Hsp Hgaps Hwait flag new. split.
  - destruct (lookup_lt_is_Some_2 (heap w) (store s) Hlt) as [cur Hcur].
    destruct (mutate_notify generateStructureId s w first cur Hcur (Hsp _ _))
      as (Hs & Hc & Hh & Hf & Hclk).
    unfold burst.
    change ([EMutate first; ENotify] ++ ?l)
      with (EMutate first :: ENotify :: l).
    set (r := run generateStructureId s [EMutate first; ENotify] w) in *.
    assert (Hrun : forall l,
      run generateStructureId s (EMutate first :: ENotify :: l) w =
      run generateStructureId r.1 l r.2) by reflexivity.
    rewrite Hrun.
    rewrite (spaced_tail wait rest r.1 r.2 first).
    + rewrite Hs, Hc, Hf. cbn -[List.last]. subst new flag.
      rewrite <- !app_assoc. reflexivity.
    + rewrite Hs. cbn. exact Hsp.
    + rewrite Hs, Hclk. reflexivity.
    + rewrite Hs at 1. exact Hh.
    + rewrite Hs. cbn. exact Hgaps.
    + rewrite Hs. cbn. exact Hwait.
  - intros Hoff. subst new.
    rewrite (migrationCalls_off _ _ _ _ _ Hoff). cbn [app].
    rewrite List.filter_app, length_app.
    rewrite (spacedCalls_sets _ _ _ _ _ Hoff). cbn. lia.
Qed.

End Spacing.

(** ** The further properties at work on the scenarios *)

(** X1 after the session without a key, and in a new process. *)
Lemma userProvidedKey_never_set_again_witness :
  userProvidedKey
    (performAll shapeId
       [ACreate stateA
          (demoOptions "k" (always true) true demoTable shallowMerge);
        AUse (keylessSession (always true) true) [EMutate stateAB; ENotify]]
       keylessWorld).2 = false /\
  userProvidedKey
    (performAll shapeId
       (ACreate stateCT
          (demoOptions "" (always true) true demoTable nullMerge)
        :: [ACreate stateA
              (demoOptions "k" (always true) true demoTable shallowMerge)])
       (initialWorld ∅)).2 = false.
Proof.
  destruct (userProvidedKey_never_set_again (St:=gmap string jsval) shapeId)
    as (H1 & H2).
  split.
  - apply H1. reflexivity.
  - apply H2. reflexivity.
Defined.

(** X2 on the session without a key, after its store got a field. *)
Lemma handle_keeps_creation_key_witness :
  let opts := demoOptions "" (always true) true demoTable shallowMerge in
  let s := keylessSession (always true) true in
  let s2 := (run shapeId s [EMutate stateAB; ENotify] keylessWorld).1 in
  let w2 := (run shapeId s [EMutate stateAB; ENotify] keylessWorld).2 in
  let cur := (snapshot (store s2) w2).1 in
  key s2 = initialKey shapeId stateA opts /\
  calls (clear s2 w2).2 =
    calls w2 ++ [CallRemove (initialKey shapeId stateA opts)] /\
  (exists rest,
     calls (restore s2 w2).2 =
       calls w2 ++ CallGet (initialKey shapeId stateA opts) :: rest) /\
  calls (persistData s2 w2).2 =
    calls w2 ++
    (if shouldPersist opts (previousState s2) cur
     then writeCalls (initialKey shapeId stateA opts) opts cur else []).
Proof.
  apply (handle_keeps_creation_key shapeId stateA
           (demoOptions "" (always true) true demoTable shallowMerge)
           (worldWith "L0:779") (keylessSession (always true) true)
           keylessWorld [EMutate stateAB; ENotify]).
  reflexivity.
Defined.

(** X4 on the session without a key whose
    [updateStorageKeyOnStructureChange] is off. *)
Lemma session_touches_own_key_only_witness :
  exists new,
    calls (run shapeId (keylessSession (always true) false)
             [EMutate stateAB; ENotify; EAdvance 100; EClear; ERestore]
             keylessWorld).2
      = calls keylessWorld ++ new /\
    Forall (fun c => callKey c = None \/ callKey c = Some "L0:779") new.
Proof.
  apply (session_touches_own_key_only shapeId
           (keylessSession (always true) false) keylessWorld).
  right. reflexivity.
Defined.

(** X5 on the session without a key whose [shouldPersist] is
    [changed]. *)
Lemma change_detecting_shouldPersist_never_writes_witness :
  let s := keylessSession changed false in
  let es := [EMutate stateAB; ENotify; EAdvance 100; EPersist] in
  calls (run shapeId s es keylessWorld).2
    = calls keylessWorld ++ quietCalls shapeId s es keylessWorld /\
  migrationOnly shapeId (key s) (o s) false
    (quietCalls shapeId s es keylessWorld).
Proof.
  apply (change_detecting_shouldPersist_never_writes shapeId
           (keylessSession changed false) keylessWorld
           [EMutate stateAB; ENotify; EAdvance 100; EPersist]).
  - reflexivity.
  - intros x. unfold changed. cbn. rewrite String.eqb_refl. reflexivity.
  - reflexivity.
  - reflexivity.
Defined.

(** X7: the session without a key persists [{a:1}]; [persist({a:5})]
    then starts from [{a:1}]. *)
Lemma persisted_snapshot_is_loaded_by_next_persist_witness :
  let opts := demoOptions "" (always true) true demoTable shallowMerge in
  let w1 := (persistData (keylessSession (always true) true) keylessWorld).2 in
  exists s' w2,
    persist shapeId [("a", JNum 5)] opts w1 = (Some s', w2) /\
    (snapshot (store s') w2).1 = stateA /\
    previousState s' = stateA.
Proof.
  apply (persisted_snapshot_is_loaded_by_next_persist shapeId
           (keylessSession (always true) true) keylessWorld
           [("a", JNum 5)]
           (demoOptions "" (always true) true demoTable shallowMerge)
           stateA); reflexivity.
Defined.

(** X8 on the session without a key. *)
Lemma restore_after_clear_finds_nothing_witness :
  let s := keylessSession (always true) true in
  let w1 := (clear s keylessWorld).2 in
  (restore s w1).1 = false /\
  heap (restore s w1).2 = heap keylessWorld /\
  calls (restore s w1).2 =
    calls keylessWorld ++ [CallRemove (key s); CallGet (key s)].
Proof.
  apply (restore_after_clear_finds_nothing
           (keylessSession (always true) true) keylessWorld).
  reflexivity.
Defined.

(** X9 on three mutations 100 and 250 ms apart, with a debounce time of
    100 ms and migration switched off. *)
Lemma spaced_mutations_are_each_written_witness :
  let s := keylessSession (always true) false in
  let new :=
    migrationCalls shapeId (key s) (o s) false stateAB
    ++ spacedCalls shapeId (key s) (o s) false stateAB
         [(100, stateA); (250, stateAB)]
    ++ writeCalls (key s) (o s) stateAB in
  calls (run shapeId s (burst stateAB [(100, stateA); (250, stateAB)] 100)
           keylessWorld).2
    = calls keylessWorld ++ new /\
  (false = true \/ updateStorageKeyOnStructureChange (o s) = false ->
   length (List.filter isSet new) = 3%nat).
Proof.
  apply (spaced_mutations_are_each_written shapeId
           (keylessSession (always true) false) keylessWorld
           stateAB [(100, stateA); (250, stateAB)] 100).
  - reflexivity.
  - cbn. lia.
  - intros a b. reflexivity.
  - repeat constructor; cbn; lia.
  - cbn. lia.
Defined.
